(** * autocomplete_light.autocomplete.base

    A shallow embedding of [AutocompleteInterface] and [AutocompleteBase]
    (src/autocomplete_light/autocomplete/base.py) together with the small
    part of Python and Django semantics these two classes rely on:
    exceptions, the [%] string-formatting operator, [len], [hasattr],
    [django.utils.html.escape], [force_str], [reverse] and [gettext_lazy]. *)

From Stdlib Require Import String Ascii List Bool Arith Lia.
Import ListNotations.

Local Open Scope list_scope.
Local Open Scope string_scope.
Set Warnings "-register-all".

(** ** Characters used by the templates and by the escaper *)

Definition dquote : ascii := "034"%char.
Definition squote : ascii := "039"%char.
Definition amp : ascii := "&"%char.
Definition lt : ascii := "<"%char.
Definition gt : ascii := ">"%char.
Definition percent : ascii := "%"%char.
Definition DQ : string := String dquote "".
Definition SQ : string := String squote "".

(** ** Python exceptions and results *)

Inductive exn : Type :=
| TypeError (msg : string)
| ValueError (msg : string)
| NotImplementedError
| NoReverseMatch (msg : string)
| ImproperlyConfigured (msg : string).

Inductive result (A : Type) : Type :=
| Ok (a : A)
| Raise (e : exn).
Arguments Ok {A} a.
Arguments Raise {A} e.

Definition rbind {A B} (r : result A) (k : A -> result B) : result B :=
  match r with
  | Ok a => k a
  | Raise e => Raise e
  end.

(** ** Python objects

    The universe of objects that can be handed to the constructor as
    [request] or [values].  A [string] is read as a sequence of code
    points below 256, one per character.  An iterator (a list iterator,
    a generator) carries the name of its type and the items it has yet
    to yield: it has [__iter__] and no [__len__]. *)

Inductive pyobj : Type :=
| PyNone
| PyNotImplemented                       (* the [NotImplemented] singleton *)
| PyBool (b : bool)
| PyInt (n : nat)
| PyStr (s : string)
| PyList (l : list pyobj)
| PyTuple (l : list pyobj)
| PyIterator (kind : string) (items : list pyobj)
| PyObject (cls : string) (text : string) (* a plain instance, with its [__str__] *)
| PyExcClass_NotImplementedError         (* the class [NotImplementedError] *)
| PyExc (e : exn).                       (* an exception instance *)

Definition type_name (o : pyobj) : string :=
  match o with
  | PyNone => "NoneType"
  | PyNotImplemented => "NotImplementedType"
  | PyBool _ => "bool"
  | PyInt _ => "int"
  | PyStr _ => "str"
  | PyList _ => "list"
  | PyTuple _ => "tuple"
  | PyIterator kind _ => kind
  | PyObject cls _ => cls
  | PyExcClass_NotImplementedError => "type"
  | PyExc (TypeError _) => "TypeError"
  | PyExc (ValueError _) => "ValueError"
  | PyExc NotImplementedError => "NotImplementedError"
  | PyExc (NoReverseMatch _) => "NoReverseMatch"
  | PyExc (ImproperlyConfigured _) => "ImproperlyConfigured"
  end.

(** [f()] : only a class is callable in this universe; calling anything
    else is a [TypeError]. *)
Definition py_call (f : pyobj) : result pyobj :=
  match f with
  | PyExcClass_NotImplementedError => Ok (PyExc NotImplementedError)
  | _ => Raise (TypeError (SQ ++ type_name f ++ SQ ++ " object is not callable"))
  end.

(** [raise o] *)
Definition py_raise {A} (o : pyobj) : result A :=
  match o with
  | PyExc e => Raise e
  | PyExcClass_NotImplementedError => Raise NotImplementedError
  | _ => Raise (TypeError "exceptions must derive from BaseException")
  end.

(** [isinstance(o, six.string_types)] *)
Definition is_string (o : pyobj) : bool :=
  match o with
  | PyStr _ => true
  | _ => false
  end.

(** [hasattr(o, '__iter__')] *)
Definition has_iter (o : pyobj) : bool :=
  match o with
  | PyStr _ | PyList _ | PyTuple _ | PyIterator _ _ => true
  | _ => false
  end.

(** The elements [iter(o)] yields, in order; [None] when [o] is not
    iterable.  A string iterates over its one-character substrings. *)
Fixpoint chars (s : string) : list pyobj :=
  match s with
  | EmptyString => []
  | String c s' => PyStr (String c "") :: chars s'
  end.

Definition elements (o : pyobj) : option (list pyobj) :=
  match o with
  | PyStr s => Some (chars s)
  | PyList l => Some l
  | PyTuple l => Some l
  | PyIterator _ items => Some items
  | _ => None
  end.

(** [len(o)]: the number of code points of a string (one per character
    here), the number of elements of a list or tuple; an object without
    [__len__], an iterator among them, is a [TypeError]. *)
Definition py_len (o : pyobj) : result nat :=
  match o with
  | PyStr s => Ok (String.length s)
  | PyList l => Ok (List.length l)
  | PyTuple l => Ok (List.length l)
  | _ => Raise (TypeError ("object of type " ++ SQ ++ type_name o ++ SQ ++ " has no len()"))
  end.

(** ** The [%] operator on strings

    [pyformat fmt args] is [fmt % args] for string arguments, processed
    left to right as Python does.  The conversions [%s] and [%%] are
    covered, which is all the templates of this module use, and a lone
    trailing [%] is Python's "incomplete format".  Other conversions
    ([%d], [%r], widths, mapping keys) are outside this model: the
    function answers [ValueError] for them, which is Python's answer only
    for characters that are no conversion at all. *)
Fixpoint pyformat (fmt : string) (args : list string) : result string :=
  match fmt with
  | EmptyString =>
      match args with
      | [] => Ok ""
      | _ :: _ => Raise (TypeError "not all arguments converted during string formatting")
      end
  | String c rest =>
      if Ascii.eqb c percent then
        match rest with
        | EmptyString => Raise (ValueError "incomplete format")
        | String d rest' =>
            if Ascii.eqb d "s"%char then
              match args with
              | [] => Raise (TypeError "not enough arguments for format string")
              | a :: args' => rbind (pyformat rest' args') (fun r => Ok (a ++ r))
              end
            else if Ascii.eqb d percent then
              rbind (pyformat rest' args) (fun r => Ok (String percent r))
            else Raise (ValueError "unsupported format character")
        end
      else rbind (pyformat rest args) (fun r => Ok (String c r))
  end.

(** [fmt % proxy] where [proxy] is a lazy translation ([gettext_lazy]).
    The proxy is a single operand, not a tuple, and it carries the
    methods of [str], [__getitem__] among them, so [%] takes it as a
    mapping: the first [%s] converts it with [str(proxy)], a second one
    finds "not enough arguments", and a template that never converts it
    is no error.  [arg] holds the text of the proxy until a [%s] has
    used it.  The same conversions as in [pyformat] are covered. *)
Fixpoint pyformat_lazy (fmt : string) (arg : option string) : result string :=
  match fmt with
  | EmptyString => Ok ""
  | String c rest =>
      if Ascii.eqb c percent then
        match rest with
        | EmptyString => Raise (ValueError "incomplete format")
        | String d rest' =>
            if Ascii.eqb d "s"%char then
              match arg with
              | None => Raise (TypeError "not enough arguments for format string")
              | Some a => rbind (pyformat_lazy rest' None) (fun r => Ok (a ++ r))
              end
            else if Ascii.eqb d percent then
              rbind (pyformat_lazy rest' arg) (fun r => Ok (String percent r))
            else Raise (ValueError "unsupported format character")
        end
      else rbind (pyformat_lazy rest arg) (fun r => Ok (String c r))
  end.

(** ** [django.utils.html.escape]

    Django delegates to [html.escape(str(text))]: the five characters
    [&], [<], [>], the double quote and the single quote are replaced by
    character references, every other character is kept. *)
Definition escape_char (c : ascii) : string :=
  if Ascii.eqb c amp then "&amp;"
  else if Ascii.eqb c lt then "&lt;"
  else if Ascii.eqb c gt then "&gt;"
  else if Ascii.eqb c dquote then "&quot;"
  else if Ascii.eqb c squote then "&#x27;"
  else String c "".

Fixpoint escape (s : string) : string :=
  match s with
  | EmptyString => ""
  | String c s' => escape_char c ++ escape s'
  end.

(** ** [force_str]

    [force_str(choice)] is [str(choice)]: what it yields belongs to the
    type of the choice, like [__str__] does. *)
Class Textual (choice : Type) : Type :=
  force_str : choice -> string.

#[export] Instance Textual_string : Textual string := fun s => s.

(** A domain object: an identity and the text its [__str__] returns. *)
Record model_object : Type := mkObject { pk : nat; text : string }.

#[export] Instance Textual_model_object : Textual model_object := text.

(** ** The services of the framework

    [reverse(viewname, args, kwargs)] either resolves the route or raises
    [NoReverseMatch]; [gettext] is the translation under the active
    language (the identity when there is no catalogue). *)
Class Django : Type := {
  reverse : string -> list string -> option (list (string * string)) -> result string;
  gettext : string -> string
}.

(** ** Instances and methods

    An instance holds the two attributes the constructor assigns.  A
    method is a computation over [self] that returns a value or raises,
    and hands back [self] as the call left it. *)
Record instance : Type := mkInstance { request : pyobj; values : pyobj }.

Definition M (A : Type) : Type := instance -> result A * instance.

Definition ret {A} (a : A) : M A := fun self => (Ok a, self).

Definition lift {A} (r : result A) : M A := fun self => (r, self).

Definition bind {A B} (m : M A) (k : A -> M B) : M B :=
  fun self =>
    match m self with
    | (Ok a, self') => k a self'
    | (Raise e, self') => (Raise e, self')
    end.

(** [self.values] *)
Definition get_values : M pyobj := fun self => (Ok (values self), self).

Notation "x <- m ;; k" := (bind m (fun x => k))
  (at level 61, m at next level, right associativity).

(** [[f(x) for x in xs]] *)
Fixpoint for_each {A B} (f : A -> M B) (xs : list A) : M (list B) :=
  match xs with
  | [] => ret []
  | x :: xs' => y <- f x ;; ys <- for_each f xs' ;; ret (y :: ys)
  end.

(** [''.join(parts)] *)
Definition join (parts : list string) : string := String.concat "" parts.

(** A class as [self.attr] and [self.method()] see it: the class-level
    attributes and the methods a subclass is meant to supply.  The
    rendering methods of [AutocompleteBase] below are inherited as they
    are and reach these through the class. *)
Module Cls.
Record t (choice : Type) : Type := mk {
  __name__ : string;
  choice_html_format : string;
  empty_html_format : string;
  autocomplete_html_format : string;
  add_another_url_name : option string;
  add_another_url_kwargs : option (list (string * string));
  choices_for_request : M (list choice);
  choices_for_values : M (list choice);
  choice_value : choice -> M string;
  choice_label : choice -> M string
}.
Arguments mk {choice}.
Arguments __name__ {choice}.
Arguments choice_html_format {choice}.
Arguments empty_html_format {choice}.
Arguments autocomplete_html_format {choice}.
Arguments add_another_url_name {choice}.
Arguments add_another_url_kwargs {choice}.
Arguments choices_for_request {choice}.
Arguments choices_for_values {choice}.
Arguments choice_value {choice}.
Arguments choice_label {choice}.
End Cls.

Module AutocompleteInterface.

Definition __init__ (request values : pyobj) : instance :=
  {| request := request;
     values :=
       match values with
       | PyNone => PyList []
       | _ =>
           if is_string values || negb (has_iter values)
           then PyList [values]
           else values
       end |}.

(** [raise NotImplemented()] : the call is evaluated first, then its
    result is raised. *)
Definition raise_NotImplemented {A} : M A :=
  lift (rbind (py_call PyNotImplemented) py_raise).

Definition autocomplete_html : M string := raise_NotImplemented.

Definition validate_values : M bool := raise_NotImplemented.

Definition choices_for_values {choice} : M (list choice) := raise_NotImplemented.

Definition url_lookup_failed : string :=
  "URL lookup for autocomplete " ++ SQ ++ "%s" ++ SQ ++ " failed. Have you included autocomplete_light.urls in your urls.py?".

Definition get_absolute_url `{Django} (cls_name : string) : M string :=
  lift
    match reverse "autocomplete_light_autocomplete" [cls_name] None with
    | Raise (NoReverseMatch _) =>
        rbind (pyformat url_lookup_failed [cls_name])
              (fun msg => Raise (ImproperlyConfigured msg))
    | r => r
    end.

End AutocompleteInterface.

Module AutocompleteBase.
Section Methods.
Context `{Django} {choice : Type} `{Textual choice}.

Definition choice_html_format : string :=
  "<span data-value=" ++ DQ ++ "%s" ++ DQ ++ ">%s</span>".
Definition empty_html_format : string :=
  "<span class=" ++ DQ ++ "block" ++ DQ ++ "><em>%s</em></span>".
Definition autocomplete_html_format : string := "%s".
Definition add_another_url_name : option string := None.
Definition add_another_url_kwargs : option (list (string * string)) := None.

Definition get_add_another_url (cls : Cls.t choice) : M (option string) :=
  match Cls.add_another_url_name cls with
  | Some name =>
      if negb (String.eqb name "") then
        url <- lift (reverse name [] (Cls.add_another_url_kwargs cls)) ;;
        ret (Some (url ++ "?_popup=1"))
      else ret None
  | None => ret None
  end.

Definition choices_for_request : M (list choice) :=
  AutocompleteInterface.raise_NotImplemented.

Definition validate_values (cls : Cls.t choice) : M bool :=
  choices <- Cls.choices_for_values cls ;;
  vs <- get_values ;;
  n <- lift (py_len vs) ;;
  ret (Nat.eqb (List.length choices) n).

Definition choice_value (c : choice) : M string := ret (force_str c).

Definition choice_label (c : choice) : M string := ret (force_str c).

Definition choice_html (cls : Cls.t choice) (c : choice) : M string :=
  v <- Cls.choice_value cls c ;;
  l <- Cls.choice_label cls c ;;
  lift (pyformat (Cls.choice_html_format cls) [escape v; escape l]).

Definition autocomplete_html (cls : Cls.t choice) : M string :=
  choices <- Cls.choices_for_request cls ;;
  parts <- for_each (choice_html cls) choices ;;
  html <- match join parts with
          | EmptyString =>
              lift (pyformat_lazy (Cls.empty_html_format cls)
                                  (Some (gettext "No matches found")))
          | html => ret html
          end ;;
  lift (pyformat (Cls.autocomplete_html_format cls) [html]).

(** The class [AutocompleteBase] itself. *)
Definition cls : Cls.t choice :=
  {| Cls.__name__ := "AutocompleteBase";
     Cls.choice_html_format := choice_html_format;
     Cls.empty_html_format := empty_html_format;
     Cls.autocomplete_html_format := autocomplete_html_format;
     Cls.add_another_url_name := add_another_url_name;
     Cls.add_another_url_kwargs := add_another_url_kwargs;
     Cls.choices_for_request := choices_for_request;
     Cls.choices_for_values := AutocompleteInterface.choices_for_values;
     Cls.choice_value := choice_value;
     Cls.choice_label := choice_label |}.

(** [class name(AutocompleteBase)] overriding the two retrieval
    methods, which is all a subclass has to do. *)
Definition subclass (name : string)
    (for_request for_values : M (list choice)) : Cls.t choice :=
  {| Cls.__name__ := name;
     Cls.choice_html_format := choice_html_format;
     Cls.empty_html_format := empty_html_format;
     Cls.autocomplete_html_format := autocomplete_html_format;
     Cls.add_another_url_name := add_another_url_name;
     Cls.add_another_url_kwargs := add_another_url_kwargs;
     Cls.choices_for_request := for_request;
     Cls.choices_for_values := for_values;
     Cls.choice_value := choice_value;
     Cls.choice_label := choice_label |}.

End Methods.
End AutocompleteBase.

(** ** Vocabulary of the properties *)

(** A method call that hands [self] back as it found it. *)
Definition read_only {A} (m : M A) : Prop := forall self, snd (m self) = self.

(** [needle in text] *)
Definition occurs_in (needle text : string) : Prop :=
  exists before after, text = before ++ needle ++ after.

Fixpoint starts_with (p s : string) : bool :=
  match p, s with
  | EmptyString, _ => true
  | String a p', String b s' => Ascii.eqb a b && starts_with p' s'
  | String _ _, EmptyString => false
  end.

Definition is_markup (c : ascii) : bool :=
  Ascii.eqb c lt || Ascii.eqb c gt || Ascii.eqb c dquote || Ascii.eqb c squote.

Definition references : list string := ["amp;"; "lt;"; "gt;"; "quot;"; "#x27;"].

(** Text an HTML parser reads as character data only, inside an element
    as well as inside a quoted attribute: no [<], [>] or quote occurs,
    and every [&] opens one of the five character references. *)
Fixpoint inert (s : string) : bool :=
  match s with
  | EmptyString => true
  | String c s' =>
      if is_markup c then false
      else if Ascii.eqb c amp
           then existsb (fun r => starts_with r s') references && inert s'
           else inert s'
  end.

(** ** A small URL configuration

    Routes by name, each with the path it resolves to; positional
    arguments are appended as path segments.  [reverse] raises
    [NoReverseMatch] for a name that is not registered. *)
Definition urlconf : Type := list (string * string).

Fixpoint route (conf : urlconf) (name : string) : option string :=
  match conf with
  | [] => None
  | (n, path) :: conf' => if String.eqb n name then Some path else route conf' name
  end.

Fixpoint segments (args : list string) : string :=
  match args with
  | [] => ""
  | a :: args' => a ++ "/" ++ segments args'
  end.

Definition reverse_in (conf : urlconf) (name : string) (args : list string)
    (kwargs : option (list (string * string))) : result string :=
  match route conf name with
  | Some path => Ok (path ++ segments args)
  | None => Raise (NoReverseMatch ("Reverse for " ++ SQ ++ name ++ SQ ++ " not found."))
  end.

(** The framework with a given URL configuration and no translation
    catalogue. *)
Definition django (conf : urlconf) : Django :=
  {| reverse := reverse_in conf; gettext := fun msg => msg |}.

(** A translation catalogue: the messages that have a translation. *)
Fixpoint translate (catalogue : list (string * string)) (msg : string) : string :=
  match catalogue with
  | [] => msg
  | (m, t) :: catalogue' => if String.eqb m msg then t else translate catalogue' msg
  end.

(** The framework with a URL configuration and an active language. *)
Definition django_translated (conf : urlconf) (catalogue : list (string * string))
    : Django :=
  {| reverse := reverse_in conf; gettext := translate catalogue |}.

Definition french : list (string * string) :=
  [("No matches found", "Aucun resultat")].

Definition site_urls : urlconf :=
  [("autocomplete_light_autocomplete", "/autocomplete/"); ("city_add", "/city/add/")].

(** ** Sample subclasses *)

(** [class name(AutocompleteBase)] whose retrieval methods return fixed
    lists. *)
Definition fixed_choices {choice} `{Textual choice} (name : string)
    (for_request for_values : list choice) : Cls.t choice :=
  AutocompleteBase.subclass name (ret for_request) (ret for_values).

(** A subclass that also sets [choice_html_format]. *)
Definition with_choice_html_format {choice} (fmt : string) (cls : Cls.t choice)
    : Cls.t choice :=
  {| Cls.__name__ := Cls.__name__ cls;
     Cls.choice_html_format := fmt;
     Cls.empty_html_format := Cls.empty_html_format cls;
     Cls.autocomplete_html_format := Cls.autocomplete_html_format cls;
     Cls.add_another_url_name := Cls.add_another_url_name cls;
     Cls.add_another_url_kwargs := Cls.add_another_url_kwargs cls;
     Cls.choices_for_request := Cls.choices_for_request cls;
     Cls.choices_for_values := Cls.choices_for_values cls;
     Cls.choice_value := Cls.choice_value cls;
     Cls.choice_label := Cls.choice_label cls |}.

(** A subclass that sets the "add another" route. *)
Definition with_add_another {choice} (name : option string)
    (kwargs : option (list (string * string))) (cls : Cls.t choice) : Cls.t choice :=
  {| Cls.__name__ := Cls.__name__ cls;
     Cls.choice_html_format := Cls.choice_html_format cls;
     Cls.empty_html_format := Cls.empty_html_format cls;
     Cls.autocomplete_html_format := Cls.autocomplete_html_format cls;
     Cls.add_another_url_name := name;
     Cls.add_another_url_kwargs := kwargs;
     Cls.choices_for_request := Cls.choices_for_request cls;
     Cls.choices_for_values := Cls.choices_for_values cls;
     Cls.choice_value := Cls.choice_value cls;
     Cls.choice_label := Cls.choice_label cls |}.

(** A subclass that overrides the two retrieval methods. *)
Definition with_retrieval {choice} (for_request for_values : M (list choice))
    (cls : Cls.t choice) : Cls.t choice :=
  {| Cls.__name__ := Cls.__name__ cls;
     Cls.choice_html_format := Cls.choice_html_format cls;
     Cls.empty_html_format := Cls.empty_html_format cls;
     Cls.autocomplete_html_format := Cls.autocomplete_html_format cls;
     Cls.add_another_url_name := Cls.add_another_url_name cls;
     Cls.add_another_url_kwargs := Cls.add_another_url_kwargs cls;
     Cls.choices_for_request := for_request;
     Cls.choices_for_values := for_values;
     Cls.choice_value := Cls.choice_value cls;
     Cls.choice_label := Cls.choice_label cls |}.

(** The markup of one choice under the default template. *)
Definition default_choice_markup {choice} `{Textual choice} (c : choice) : string :=
  "<span data-value=" ++ DQ ++ escape (force_str c) ++ DQ ++ ">"
    ++ escape (force_str c) ++ "</span>".

Definition no_matches_markup : string :=
  "<span class=" ++ DQ ++ "block" ++ DQ ++ "><em>No matches found</em></span>".

(** Number of occurrences of a character. *)
Fixpoint count_char (c : ascii) (s : string) : nat :=
  match s with
  | EmptyString => 0
  | String d s' => (if Ascii.eqb d c then 1 else 0) + count_char c s'
  end.

(** The number of [%s] conversions of a template, read the way
    [pyformat] reads it; [None] for a template [pyformat] rejects
    whatever the arguments are. *)
Fixpoint slots (fmt : string) : option nat :=
  match fmt with
  | EmptyString => Some 0
  | String c rest =>
      if Ascii.eqb c percent then
        match rest with
        | EmptyString => None
        | String d rest' =>
            if Ascii.eqb d "s"%char then option_map S (slots rest')
            else if Ascii.eqb d percent then slots rest'
            else None
        end
      else slots rest
  end.

Definition not_enough_arguments : exn :=
  TypeError "not enough arguments for format string".

Definition not_all_converted : exn :=
  TypeError "not all arguments converted during string formatting".

(** * Properties *)

Import AutocompleteInterface.

(** ** Construction *)

Lemma init_request (req v : pyobj) : request (__init__ req v) = req.
Proof. reflexivity. Qed.

Lemma init_wraps (req v : pyobj) :
  v <> PyNone ->
  is_string v = true \/ has_iter v = false ->
  values (__init__ req v) = PyList [v].
Proof.
  intros Hnone Hscalar.
  unfold __init__; cbn [values].
  destruct v; try congruence; cbn in *; try reflexivity;
    destruct Hscalar; discriminate.
Qed.

Lemma init_keeps_iterable (req v : pyobj) :
  is_string v = false ->
  has_iter v = true ->
  values (__init__ req v) = v.
Proof.
  intros Hstr Hiter.
  destruct v; cbn in *; try discriminate; reflexivity.
Qed.

(** C1, as the claim states it, fails on a string: a string is iterable,
    yet the stored sequence is the one-element list holding the whole
    string, not the string's elements. *)
Lemma C1_string_counterexample :
  has_iter (PyStr "ab") = true /\
  elements (values (__init__ PyNone (PyStr "ab"))) = Some [PyStr "ab"] /\
  elements (PyStr "ab") = Some [PyStr "a"; PyStr "b"] /\
  elements (values (__init__ PyNone (PyStr "ab"))) <> elements (PyStr "ab").
Proof.
  repeat split; discriminate.
Qed.

(** C1 (amended): the constructor stores [request] untouched and
    normalizes [values] by three cases: [None] gives the empty list; a
    string or a value without [__iter__] gives the one-element list
    holding that value; any other iterable is stored as it is, so its
    elements are the stored elements, in order and with duplicates (for a
    list or tuple [l], exactly [l]). *)
Theorem C1_init_normalizes_values (req v : pyobj) :
  request (__init__ req v) = req /\
  (v = PyNone -> values (__init__ req v) = PyList []) /\
  (v <> PyNone -> is_string v = true \/ has_iter v = false ->
     values (__init__ req v) = PyList [v] /\
     elements (values (__init__ req v)) = Some [v]) /\
  (is_string v = false -> has_iter v = true ->
     values (__init__ req v) = v /\
     elements (values (__init__ req v)) = elements v) /\
  (forall l, v = PyList l \/ v = PyTuple l ->
     elements (values (__init__ req v)) = Some l).
Proof.
  split; [apply init_request|].
  split; [intros ->; reflexivity|].
  split.
  - intros Hnone Hscalar.
    rewrite (init_wraps req v Hnone Hscalar). split; reflexivity.
  - split.
    + intros Hstr Hiter.
      rewrite (init_keeps_iterable req v Hstr Hiter). split; reflexivity.
    + intros l [-> | ->]; reflexivity.
Qed.

Lemma C1_init_normalizes_values_witness :
  values (__init__ (PyObject "HttpRequest" "<HttpRequest>") PyNone) = PyList [] /\
  values (__init__ PyNone (PyInt 7)) = PyList [PyInt 7] /\
  values (__init__ PyNone (PyStr "ab")) = PyList [PyStr "ab"] /\
  elements (values (__init__ PyNone (PyTuple [PyInt 2; PyInt 1; PyInt 2])))
    = Some [PyInt 2; PyInt 1; PyInt 2] /\
  elements (values (__init__ PyNone (PyList [PyStr "x"; PyStr "x"])))
    = Some [PyStr "x"; PyStr "x"].
Proof.
  split.
  { apply (C1_init_normalizes_values (PyObject "HttpRequest" "<HttpRequest>") PyNone).
    reflexivity. }
  split.
  { apply (C1_init_normalizes_values PyNone (PyInt 7)).
    - discriminate.
    - right; reflexivity. }
  split.
  { apply (C1_init_normalizes_values PyNone (PyStr "ab")).
    - discriminate.
    - left; reflexivity. }
  split.
  { destruct (C1_init_normalizes_values PyNone (PyTuple [PyInt 2; PyInt 1; PyInt 2]))
      as (_ & _ & _ & Hiter & _).
    destruct Hiter as [_ Hel]; [reflexivity | reflexivity | exact Hel]. }
  { destruct (C1_init_normalizes_values PyNone (PyList [PyStr "x"; PyStr "x"]))
      as (_ & _ & _ & _ & Hlist).
    apply Hlist. left; reflexivity. }
Defined.

(** C10: a string given as [values] is stored as the one-element list
    holding the whole string; it is never split into its characters. *)
Theorem C10_string_is_wrapped (req : pyobj) (s : string) :
  values (__init__ req (PyStr s)) = PyList [PyStr s] /\
  elements (values (__init__ req (PyStr s))) = Some [PyStr s] /\
  py_len (values (__init__ req (PyStr s))) = Ok 1.
Proof.
  repeat split.
Qed.

(** ** Unimplemented operations *)

(** C6: the four unimplemented operations do raise at once and return
    nothing, but what [raise NotImplemented()] raises is the [TypeError]
    of calling the [NotImplemented] singleton, not the
    [NotImplementedError] that [raise NotImplementedError()] signals. *)
Theorem C6_raise_NotImplemented_is_TypeError (self : instance) :
  let e := TypeError (SQ ++ "NotImplementedType" ++ SQ ++ " object is not callable") in
  AutocompleteInterface.autocomplete_html self = (Raise e, self) /\
  AutocompleteInterface.validate_values self = (Raise e, self) /\
  AutocompleteInterface.choices_for_values (choice := string) self = (Raise e, self) /\
  AutocompleteBase.choices_for_request (choice := string) self = (Raise e, self) /\
  e <> NotImplementedError /\
  lift (A := string) (rbind (py_call PyExcClass_NotImplementedError) py_raise) self
    = (Raise NotImplementedError, self).
Proof.
  cbv zeta. repeat split. discriminate.
Qed.

(** ** Route lookups *)

Lemma url_lookup_failed_message (name : string) :
  pyformat url_lookup_failed [name]
  = Ok ("URL lookup for autocomplete " ++ SQ ++ name ++ SQ
          ++ " failed. Have you included autocomplete_light.urls in your urls.py?").
Proof.
  unfold url_lookup_failed. cbn. reflexivity.
Qed.

(** C7: when the lookup of the route [autocomplete_light_autocomplete]
    for the class name raises [NoReverseMatch], [get_absolute_url]
    raises [ImproperlyConfigured] with a message in which the class name
    occurs; when the lookup resolves, it returns the resolved URL. *)
Theorem C7_get_absolute_url `{Django} (name : string) (self : instance) :
  (forall why,
      reverse "autocomplete_light_autocomplete" [name] None = Raise (NoReverseMatch why) ->
      exists msg,
        get_absolute_url name self = (Raise (ImproperlyConfigured msg), self) /\
        occurs_in name msg) /\
  (forall url,
      reverse "autocomplete_light_autocomplete" [name] None = Ok url ->
      get_absolute_url name self = (Ok url, self)).
Proof.
  split.
  - intros why Hfail.
    eexists. split.
    + unfold get_absolute_url, lift. rewrite Hfail.
      rewrite url_lookup_failed_message. cbn [rbind]. reflexivity.
    + exists ("URL lookup for autocomplete " ++ SQ).
      exists (SQ ++ " failed. Have you included autocomplete_light.urls in your urls.py?").
      reflexivity.
  - intros url Hok.
    unfold get_absolute_url, lift. rewrite Hok. reflexivity.
Qed.

Lemma C7_get_absolute_url_witness :
  (exists msg,
      get_absolute_url (H := django []) "CityAutocomplete" (__init__ PyNone PyNone)
        = (Raise (ImproperlyConfigured msg), __init__ PyNone PyNone) /\
      occurs_in "CityAutocomplete" msg) /\
  get_absolute_url (H := django site_urls) "CityAutocomplete" (__init__ PyNone PyNone)
    = (Ok "/autocomplete/CityAutocomplete/", __init__ PyNone PyNone).
Proof.
  split.
  - apply (C7_get_absolute_url (H := django []) "CityAutocomplete" (__init__ PyNone PyNone))
      with (why := "Reverse for " ++ SQ ++ "autocomplete_light_autocomplete" ++ SQ ++ " not found.").
    reflexivity.
  - apply (C7_get_absolute_url (H := django site_urls) "CityAutocomplete" (__init__ PyNone PyNone)).
    reflexivity.
Defined.

(** C8: with a route name configured (a non-empty name),
    [get_add_another_url] returns the URL that route resolves to with
    the configured keyword arguments, followed by [?_popup=1]; with the
    name unset ([None], or the empty name) it returns [None] and does
    not raise. *)
Theorem C8_get_add_another_url `{Django} {choice : Type}
    (cls : Cls.t choice) (self : instance) :
  (forall name url,
      Cls.add_another_url_name cls = Some name ->
      name <> "" ->
      reverse name [] (Cls.add_another_url_kwargs cls) = Ok url ->
      AutocompleteBase.get_add_another_url cls self
        = (Ok (Some (url ++ "?_popup=1")), self)) /\
  (Cls.add_another_url_name cls = None \/ Cls.add_another_url_name cls = Some "" ->
   AutocompleteBase.get_add_another_url cls self = (Ok None, self)).
Proof.
  unfold AutocompleteBase.get_add_another_url. split.
  - intros name url Hname Hset Hurl. rewrite Hname.
    destruct (String.eqb_spec name "") as [Heq | _]; [contradiction|].
    cbn [negb]. unfold bind, lift, ret. rewrite Hurl. reflexivity.
  - intros [Hnone | Hempty].
    + rewrite Hnone. reflexivity.
    + rewrite Hempty. reflexivity.
Qed.

Lemma C8_get_add_another_url_witness :
  AutocompleteBase.get_add_another_url (H := django site_urls)
      (with_add_another (Some "city_add") None (AutocompleteBase.cls (choice := string)))
      (__init__ PyNone PyNone)
    = (Ok (Some "/city/add/?_popup=1"), __init__ PyNone PyNone) /\
  AutocompleteBase.get_add_another_url (H := django site_urls)
      (AutocompleteBase.cls (choice := string)) (__init__ PyNone PyNone)
    = (Ok None, __init__ PyNone PyNone).
Proof.
  split.
  - apply (C8_get_add_another_url (H := django site_urls)
             (with_add_another (Some "city_add") None (AutocompleteBase.cls (choice := string)))
             (__init__ PyNone PyNone)) with (name := "city_add") (url := "/city/add/").
    + reflexivity.
    + discriminate.
    + reflexivity.
  - apply (C8_get_add_another_url (H := django site_urls)
             (AutocompleteBase.cls (choice := string)) (__init__ PyNone PyNone)).
    left; reflexivity.
Defined.

(** ** Validation *)

Lemma validate_values_counts {choice : Type} (cls : Cls.t choice)
    (self self' : instance) (choices : list choice) (n : nat) :
  Cls.choices_for_values cls self = (Ok choices, self') ->
  py_len (values self') = Ok n ->
  AutocompleteBase.validate_values cls self
    = (Ok (Nat.eqb (List.length choices) n), self').
Proof.
  intros Hchoices Hlen.
  unfold AutocompleteBase.validate_values, bind.
  rewrite Hchoices. unfold get_values, lift. rewrite Hlen. reflexivity.
Qed.

(** C2: when [choices_for_values()] returns a list, [validate_values()]
    returns [True] exactly when that list is as long as [self.values];
    only the two lengths are compared, so any other list of the same
    length gives the same answer. *)
Theorem C2_validate_values_compares_lengths {choice : Type} (cls : Cls.t choice)
    (self self' : instance) (choices : list choice) (n : nat) :
  Cls.choices_for_values cls self = (Ok choices, self') ->
  py_len (values self') = Ok n ->
  (exists b,
      AutocompleteBase.validate_values cls self = (Ok b, self') /\
      (b = true <-> List.length choices = n)) /\
  (forall others : list choice,
      List.length others = List.length choices ->
      AutocompleteBase.validate_values
        (with_retrieval (Cls.choices_for_request cls) (fun s => (Ok others, self')) cls) self
      = AutocompleteBase.validate_values cls self).
Proof.
  intros Hchoices Hlen. split.
  - exists (Nat.eqb (List.length choices) n). split.
    + now apply validate_values_counts.
    + apply Nat.eqb_eq.
  - intros others Hsame.
    rewrite (validate_values_counts cls self self' choices n Hchoices Hlen).
    rewrite (validate_values_counts _ self self' others n); [|reflexivity|exact Hlen].
    now rewrite Hsame.
Qed.

Lemma C2_validate_values_compares_lengths_witness :
  let two := __init__ PyNone (PyList [PyInt 1; PyInt 2]) in
  (exists b,
      AutocompleteBase.validate_values
        (fixed_choices "A" [] ["one"; "two"]) two = (Ok b, two) /\
      (b = true <-> List.length ["one"; "two"] = 2)) /\
  AutocompleteBase.validate_values
    (with_retrieval (ret []) (fun s => (Ok ["one"; "one"], two))
       (fixed_choices "A" [] ["one"; "two"])) two
  = AutocompleteBase.validate_values (fixed_choices "A" [] ["one"; "two"]) two.
Proof.
  intro two.
  destruct (C2_validate_values_compares_lengths
              (fixed_choices "A" [] ["one"; "two"]) two two ["one"; "two"] 2)
    as [Hiff Hsame]; [reflexivity | reflexivity |].
  split.
  - exact Hiff.
  - apply (Hsame ["one"; "one"]). reflexivity.
Defined.

(** Two values of which one resolves: the answer is [False]. *)
Example validate_values_one_of_two :
  AutocompleteBase.validate_values (fixed_choices "A" [] ["one"])
    (__init__ PyNone (PyList [PyInt 1; PyInt 2]))
  = (Ok false, __init__ PyNone (PyList [PyInt 1; PyInt 2])).
Proof. reflexivity. Qed.

(** ** Rendering one choice *)

Lemma escape_char_inert (c : ascii) (rest : string) :
  inert rest = true -> inert (escape_char c ++ rest) = true.
Proof.
  intro Hrest. unfold escape_char.
  destruct (Ascii.eqb c amp) eqn:Hamp; [cbn; exact Hrest|].
  destruct (Ascii.eqb c lt) eqn:Hlt; [cbn; exact Hrest|].
  destruct (Ascii.eqb c gt) eqn:Hgt; [cbn; exact Hrest|].
  destruct (Ascii.eqb c dquote) eqn:Hdq; [cbn; exact Hrest|].
  destruct (Ascii.eqb c squote) eqn:Hsq; [cbn; exact Hrest|].
  cbn [append inert]. unfold is_markup.
  rewrite Hlt, Hgt, Hdq, Hsq, Hamp. exact Hrest.
Qed.

Lemma escape_inert (s : string) : inert (escape s) = true.
Proof.
  induction s as [|c s IH]; [reflexivity|].
  cbn [escape]. now apply escape_char_inert.
Qed.

Lemma choice_html_of_parts {choice : Type} (cls : Cls.t choice) (c : choice)
    (v l : string) (self : instance) :
  Cls.choice_value cls c self = (Ok v, self) ->
  Cls.choice_label cls c self = (Ok l, self) ->
  AutocompleteBase.choice_html cls c self
    = (pyformat (Cls.choice_html_format cls) [escape v; escape l], self).
Proof.
  intros Hv Hl. unfold AutocompleteBase.choice_html, bind.
  rewrite Hv, Hl. reflexivity.
Qed.

Lemma choice_html_format_default (v l : string) :
  pyformat AutocompleteBase.choice_html_format [v; l]
  = Ok ("<span data-value=" ++ DQ ++ v ++ DQ ++ ">" ++ l ++ "</span>").
Proof.
  unfold AutocompleteBase.choice_html_format. cbn. reflexivity.
Qed.

Lemma choice_html_default {choice : Type} `{Textual choice} (cls : Cls.t choice)
    (c : choice) (self : instance) :
  Cls.choice_html_format cls = AutocompleteBase.choice_html_format ->
  Cls.choice_value cls = AutocompleteBase.choice_value ->
  Cls.choice_label cls = AutocompleteBase.choice_label ->
  AutocompleteBase.choice_html cls c self = (Ok (default_choice_markup c), self).
Proof.
  intros Hfmt Hv Hl.
  rewrite (choice_html_of_parts cls c (force_str c) (force_str c));
    [| rewrite Hv; reflexivity | rewrite Hl; reflexivity].
  rewrite Hfmt, choice_html_format_default. reflexivity.
Qed.

(** C5: [choice_html] escapes what [choice_value] returns and what
    [choice_label] returns, each on its own, and substitutes them into
    the choice template in that order; what [escape] returns holds no
    [<], [>] or quote, and no [&] other than one opening a character
    reference.  Under the defaults a choice whose text is [<script>]
    renders with [&lt;script&gt;] in the attribute and in the content. *)
Theorem C5_choice_html_escapes {choice : Type} (cls : Cls.t choice) (c : choice)
    (v l : string) (self : instance) :
  Cls.choice_value cls c self = (Ok v, self) ->
  Cls.choice_label cls c self = (Ok l, self) ->
  AutocompleteBase.choice_html cls c self
    = (pyformat (Cls.choice_html_format cls) [escape v; escape l], self) /\
  (Cls.choice_html_format cls = AutocompleteBase.choice_html_format ->
   AutocompleteBase.choice_html cls c self
     = (Ok ("<span data-value=" ++ DQ ++ escape v ++ DQ ++ ">" ++ escape l ++ "</span>"),
        self)) /\
  inert (escape v) = true /\
  inert (escape l) = true /\
  escape "<script>" = "&lt;script&gt;" /\
  AutocompleteBase.choice_html AutocompleteBase.cls "<script>" self
    = (Ok ("<span data-value=" ++ DQ ++ "&lt;script&gt;" ++ DQ ++ ">&lt;script&gt;</span>"),
       self).
Proof.
  intros Hv Hl.
  pose proof (choice_html_of_parts cls c v l self Hv Hl) as Hhtml.
  split; [exact Hhtml|].
  split.
  { intro Hfmt. rewrite Hhtml, Hfmt. now rewrite choice_html_format_default. }
  split; [apply escape_inert|].
  split; [apply escape_inert|].
  split; reflexivity.
Qed.

Lemma C5_choice_html_escapes_witness :
  AutocompleteBase.choice_html (fixed_choices "Tags" [] []) (mkObject 1 "<b>Q&A</b>")
    (__init__ PyNone PyNone)
  = (Ok ("<span data-value=" ++ DQ ++ "&lt;b&gt;Q&amp;A&lt;/b&gt;" ++ DQ
           ++ ">&lt;b&gt;Q&amp;A&lt;/b&gt;</span>"),
     __init__ PyNone PyNone).
Proof.
  destruct (C5_choice_html_escapes (fixed_choices "Tags" [] []) (mkObject 1 "<b>Q&A</b>")
              "<b>Q&A</b>" "<b>Q&A</b>" (__init__ PyNone PyNone))
    as (_ & Hdefault & _); [reflexivity | reflexivity |].
  apply Hdefault. reflexivity.
Defined.

(** ** Rendering the list *)

Lemma for_each_pure {A B : Type} (f : A -> M B) (h : A -> B) (xs : list A) :
  (forall x, In x xs -> forall self, f x self = (Ok (h x), self)) ->
  forall self, for_each f xs self = (Ok (map h xs), self).
Proof.
  induction xs as [|x xs IH]; intros Hpure self; [reflexivity|].
  cbn [for_each map]. unfold bind at 1.
  rewrite (Hpure x (or_introl eq_refl)).
  unfold bind at 1.
  rewrite IH; [reflexivity|].
  intros y Hy. apply Hpure. now right.
Qed.

Lemma append_empty_r (s : string) : s ++ "" = s.
Proof.
  induction s as [|c s IH]; cbn; [reflexivity | now rewrite IH].
Qed.

Lemma join_cons (x : string) (xs : list string) : join (x :: xs) = x ++ join xs.
Proof.
  unfold join. destruct xs as [|y ys]; cbn.
  - now rewrite append_empty_r.
  - reflexivity.
Qed.

Lemma join_default_markup_not_empty {choice : Type} `{Textual choice}
    (c : choice) (cs : list choice) :
  join (map default_choice_markup (c :: cs)) <> "".
Proof.
  cbn [map]. rewrite join_cons. unfold default_choice_markup. cbn. discriminate.
Qed.

Lemma autocomplete_html_format_default (html : string) :
  pyformat AutocompleteBase.autocomplete_html_format [html] = Ok html.
Proof.
  unfold AutocompleteBase.autocomplete_html_format. cbn.
  now rewrite append_empty_r.
Qed.

Lemma empty_html_format_default (msg : string) :
  pyformat_lazy AutocompleteBase.empty_html_format (Some msg)
  = Ok ("<span class=" ++ DQ ++ "block" ++ DQ ++ "><em>" ++ msg ++ "</em></span>").
Proof.
  unfold AutocompleteBase.empty_html_format. cbn. reflexivity.
Qed.

Lemma autocomplete_html_of_parts `{Django} {choice : Type} (cls : Cls.t choice)
    (self self' : instance) (choices : list choice) (h : choice -> string) :
  Cls.choices_for_request cls self = (Ok choices, self') ->
  (forall c, In c choices ->
     forall s, AutocompleteBase.choice_html cls c s = (Ok (h c), s)) ->
  AutocompleteBase.autocomplete_html cls self
  = (rbind
       match join (map h choices) with
       | EmptyString =>
           pyformat_lazy (Cls.empty_html_format cls) (Some (gettext "No matches found"))
       | html => Ok html
       end
       (fun html => pyformat (Cls.autocomplete_html_format cls) [html]),
     self').
Proof.
  intros Hchoices Hpure.
  unfold AutocompleteBase.autocomplete_html. unfold bind at 1. rewrite Hchoices.
  unfold bind at 1. rewrite (for_each_pure _ h choices Hpure).
  unfold bind, lift, ret.
  destruct (join (map h choices)) as [|ch html].
  - destruct (pyformat_lazy (Cls.empty_html_format cls)
                (Some (gettext "No matches found"))); reflexivity.
  - reflexivity.
Qed.

(** C4, as the claim states it, fails under an active translation: with
    the default templates and no choices the message in the markup is
    the translation of ["No matches found"], not that text itself. *)
Lemma C4_translated_counterexample :
  let cls := fixed_choices (choice := string) "Cities" [] [] in
  let self := __init__ PyNone PyNone in
  Cls.choices_for_request cls self = (Ok [], self) /\
  Cls.empty_html_format cls = AutocompleteBase.empty_html_format /\
  Cls.autocomplete_html_format cls = AutocompleteBase.autocomplete_html_format /\
  AutocompleteBase.autocomplete_html (H := django_translated site_urls french) cls self
    = (Ok ("<span class=" ++ DQ ++ "block" ++ DQ ++ "><em>Aucun resultat</em></span>"),
       self) /\
  AutocompleteBase.autocomplete_html (H := django_translated site_urls french) cls self
    <> (Ok no_matches_markup, self).
Proof.
  cbv zeta. repeat split. vm_compute. discriminate.
Qed.

(** C4 (amended): when [choices_for_request()] returns the empty list,
    the result is the empty template formatted with the lazy translation
    of ["No matches found"], wrapped in the list template; under the
    default templates it is [<span class="block"><em>M</em></span>] for
    the translation [M] of the message under the active language, which
    is [<span class="block"><em>No matches found</em></span>] when the
    message has no translation. *)
Theorem C4_autocomplete_html_no_choices `{Django} {choice : Type} (cls : Cls.t choice)
    (self self' : instance) :
  Cls.choices_for_request cls self = (Ok [], self') ->
  AutocompleteBase.autocomplete_html cls self
  = (rbind (pyformat_lazy (Cls.empty_html_format cls) (Some (gettext "No matches found")))
           (fun html => pyformat (Cls.autocomplete_html_format cls) [html]),
     self') /\
  (Cls.empty_html_format cls = AutocompleteBase.empty_html_format ->
   Cls.autocomplete_html_format cls = AutocompleteBase.autocomplete_html_format ->
   AutocompleteBase.autocomplete_html cls self
   = (Ok ("<span class=" ++ DQ ++ "block" ++ DQ ++ "><em>"
            ++ gettext "No matches found" ++ "</em></span>"), self') /\
   (gettext "No matches found" = "No matches found" ->
    AutocompleteBase.autocomplete_html cls self = (Ok no_matches_markup, self'))).
Proof.
  intro Hchoices.
  assert (Hrender :
    AutocompleteBase.autocomplete_html cls self
    = (rbind (pyformat_lazy (Cls.empty_html_format cls)
                (Some (gettext "No matches found")))
             (fun html => pyformat (Cls.autocomplete_html_format cls) [html]),
       self')).
  { rewrite (autocomplete_html_of_parts cls self self' [] (fun _ => "") Hchoices).
    - reflexivity.
    - intros c []. }
  split; [exact Hrender|].
  intros Hempty Hlist.
  rewrite Hrender, Hempty, Hlist, empty_html_format_default. cbn [rbind].
  rewrite autocomplete_html_format_default.
  split; [reflexivity|].
  intros ->. reflexivity.
Qed.

Lemma C4_autocomplete_html_no_choices_witness :
  AutocompleteBase.autocomplete_html (H := django site_urls)
    (fixed_choices (choice := string) "Cities" [] []) (__init__ PyNone PyNone)
  = (Ok ("<span class=" ++ DQ ++ "block" ++ DQ ++ "><em>No matches found</em></span>"),
     __init__ PyNone PyNone) /\
  AutocompleteBase.autocomplete_html (H := django_translated site_urls french)
    (fixed_choices (choice := string) "Cities" [] []) (__init__ PyNone PyNone)
  = (Ok ("<span class=" ++ DQ ++ "block" ++ DQ ++ "><em>Aucun resultat</em></span>"),
     __init__ PyNone PyNone).
Proof.
  split.
  - destruct (C4_autocomplete_html_no_choices (H := django site_urls)
                (fixed_choices (choice := string) "Cities" [] [])
                (__init__ PyNone PyNone) (__init__ PyNone PyNone))
      as [_ Hdefault]; [reflexivity|].
    destruct Hdefault as [_ Hplain]; [reflexivity | reflexivity |].
    apply Hplain. reflexivity.
  - destruct (C4_autocomplete_html_no_choices (H := django_translated site_urls french)
                (fixed_choices (choice := string) "Cities" [] [])
                (__init__ PyNone PyNone) (__init__ PyNone PyNone))
      as [_ Hdefault]; [reflexivity|].
    destruct Hdefault as [Htranslated _]; [reflexivity | reflexivity |].
    exact Htranslated.
Defined.

(** With a lazy translation as operand, an empty template without a slot
    is returned as it is. *)
Example empty_html_format_without_slot :
  AutocompleteBase.autocomplete_html (H := django site_urls)
    {| Cls.__name__ := "Quiet";
       Cls.choice_html_format := AutocompleteBase.choice_html_format;
       Cls.empty_html_format := "<em>nothing</em>";
       Cls.autocomplete_html_format := AutocompleteBase.autocomplete_html_format;
       Cls.add_another_url_name := None;
       Cls.add_another_url_kwargs := None;
       Cls.choices_for_request := ret (A := list string) [];
       Cls.choices_for_values := ret [];
       Cls.choice_value := AutocompleteBase.choice_value;
       Cls.choice_label := AutocompleteBase.choice_label |}
    (__init__ PyNone PyNone)
  = (Ok "<em>nothing</em>", __init__ PyNone PyNone).
Proof. reflexivity. Qed.

(** C3, as the claim states it, fails when the markup of the choices is
    empty although the list of choices is not: with the choice template
    [%s%s] and the single choice [''], the concatenation is [''] and the
    result is the "no matches" markup, not the wrapped concatenation. *)
Lemma C3_blank_choice_counterexample :
  let cls := with_choice_html_format "%s%s" (fixed_choices "Blank" [""] []) in
  let self := __init__ PyNone PyNone in
  Cls.choices_for_request cls self = (Ok [""], self) /\
  for_each (AutocompleteBase.choice_html cls) [""] self = (Ok [""], self) /\
  pyformat (Cls.autocomplete_html_format cls) [join [""]] = Ok "" /\
  AutocompleteBase.autocomplete_html (H := django site_urls) cls self
    = (Ok no_matches_markup, self) /\
  AutocompleteBase.autocomplete_html (H := django site_urls) cls self
    <> (pyformat (Cls.autocomplete_html_format cls) [join [""]], self).
Proof.
  cbv zeta. repeat split. vm_compute. discriminate.
Qed.

(** C3 (amended): when the concatenation of [choice_html(c)] over the
    choices returned by [choices_for_request()], in the order returned,
    is not the empty string, the result is that concatenation wrapped in
    the list template.  Under the default templates every non-empty list
    of choices is such a case, and the result is the concatenation
    itself; for the choices ['a', 'b'] it is
    [<span data-value="a">a</span><span data-value="b">b</span>]. *)
Theorem C3_autocomplete_html_concatenates `{Django} {choice : Type} `{Textual choice}
    (cls : Cls.t choice) (self self' : instance) (choices : list choice) :
  Cls.choices_for_request cls self = (Ok choices, self') ->
  (forall h : choice -> string,
      (forall c, In c choices ->
         forall s, AutocompleteBase.choice_html cls c s = (Ok (h c), s)) ->
      join (map h choices) <> "" ->
      AutocompleteBase.autocomplete_html cls self
      = (pyformat (Cls.autocomplete_html_format cls) [join (map h choices)], self')) /\
  (choices <> [] ->
   Cls.choice_html_format cls = AutocompleteBase.choice_html_format ->
   Cls.autocomplete_html_format cls = AutocompleteBase.autocomplete_html_format ->
   Cls.choice_value cls = AutocompleteBase.choice_value ->
   Cls.choice_label cls = AutocompleteBase.choice_label ->
   AutocompleteBase.autocomplete_html cls self
   = (Ok (join (map default_choice_markup choices)), self')) /\
  AutocompleteBase.autocomplete_html (fixed_choices "Letters" ["a"; "b"] []) self
  = (Ok ("<span data-value=" ++ DQ ++ "a" ++ DQ ++ ">a</span>"
           ++ "<span data-value=" ++ DQ ++ "b" ++ DQ ++ ">b</span>"), self).
Proof.
  intro Hchoices.
  assert (Hgeneral : forall h : choice -> string,
      (forall c, In c choices ->
         forall s, AutocompleteBase.choice_html cls c s = (Ok (h c), s)) ->
      join (map h choices) <> "" ->
      AutocompleteBase.autocomplete_html cls self
      = (pyformat (Cls.autocomplete_html_format cls) [join (map h choices)], self')).
  { intros h Hpure Hmarkup.
    rewrite (autocomplete_html_of_parts cls self self' choices h Hchoices Hpure).
    destruct (join (map h choices)); [contradiction | reflexivity]. }
  split; [exact Hgeneral|].
  split; [|reflexivity].
  intros Hsome Hfmt Hlist Hv Hl.
  rewrite (Hgeneral default_choice_markup).
  - rewrite Hlist. apply f_equal2; [|reflexivity].
    apply autocomplete_html_format_default.
  - intros c _ s. now apply choice_html_default.
  - destruct choices as [|c cs]; [contradiction|].
    apply join_default_markup_not_empty.
Qed.

Lemma C3_autocomplete_html_concatenates_witness :
  AutocompleteBase.autocomplete_html (H := django site_urls)
    (fixed_choices "Tags" [mkObject 2 "b&w"; mkObject 1 "art"] [])
    (__init__ PyNone PyNone)
  = (Ok ("<span data-value=" ++ DQ ++ "b&amp;w" ++ DQ ++ ">b&amp;w</span>"
           ++ "<span data-value=" ++ DQ ++ "art" ++ DQ ++ ">art</span>"),
     __init__ PyNone PyNone).
Proof.
  destruct (C3_autocomplete_html_concatenates (H := django site_urls)
              (fixed_choices "Tags" [mkObject 2 "b&w"; mkObject 1 "art"] [])
              (__init__ PyNone PyNone) (__init__ PyNone PyNone)
              [mkObject 2 "b&w"; mkObject 1 "art"])
    as (_ & Hdefault & _); [reflexivity|].
  apply Hdefault; [discriminate | reflexivity | reflexivity | reflexivity | reflexivity].
Defined.

(** ** No hidden state *)

Lemma read_only_ret {A : Type} (a : A) : read_only (ret a).
Proof. intro self. reflexivity. Qed.

Lemma read_only_lift {A : Type} (r : result A) : read_only (lift r).
Proof. intro self. reflexivity. Qed.

Lemma read_only_get_values : read_only get_values.
Proof. intro self. reflexivity. Qed.

Lemma read_only_bind {A B : Type} (m : M A) (k : A -> M B) :
  read_only m -> (forall a, read_only (k a)) -> read_only (bind m k).
Proof.
  intros Hm Hk self. unfold bind.
  specialize (Hm self).
  destruct (m self) as [[a | e] self1]; cbn in Hm; subst self1.
  - apply Hk.
  - reflexivity.
Qed.

Lemma read_only_for_each {A B : Type} (f : A -> M B) (xs : list A) :
  (forall x, read_only (f x)) -> read_only (for_each f xs).
Proof.
  intro Hf. induction xs as [|x xs IH]; cbn [for_each].
  - apply read_only_ret.
  - apply read_only_bind; [apply Hf|]. intro y.
    apply read_only_bind; [exact IH|]. intro ys. apply read_only_ret.
Qed.

Create HintDb read_only.
#[local] Hint Resolve read_only_ret read_only_lift read_only_get_values : read_only.

Lemma read_only_choice_html {choice : Type} (cls : Cls.t choice) (c : choice) :
  read_only (Cls.choice_value cls c) ->
  read_only (Cls.choice_label cls c) ->
  read_only (AutocompleteBase.choice_html cls c).
Proof.
  intros Hv Hl. unfold AutocompleteBase.choice_html.
  apply read_only_bind; [exact Hv|]. intro v.
  apply read_only_bind; [exact Hl|]. intro l.
  auto with read_only.
Qed.

Lemma read_only_autocomplete_html `{Django} {choice : Type} (cls : Cls.t choice) :
  read_only (Cls.choices_for_request cls) ->
  (forall c, read_only (Cls.choice_value cls c)) ->
  (forall c, read_only (Cls.choice_label cls c)) ->
  read_only (AutocompleteBase.autocomplete_html cls).
Proof.
  intros Hreq Hv Hl. unfold AutocompleteBase.autocomplete_html.
  apply read_only_bind; [exact Hreq|]. intro choices.
  apply read_only_bind.
  { apply read_only_for_each. intro c. now apply read_only_choice_html. }
  intro parts.
  apply read_only_bind; [destruct (join parts); auto with read_only|].
  intro html. auto with read_only.
Qed.

Lemma read_only_validate_values {choice : Type} (cls : Cls.t choice) :
  read_only (Cls.choices_for_values cls) ->
  read_only (AutocompleteBase.validate_values cls).
Proof.
  intro Hval. unfold AutocompleteBase.validate_values.
  apply read_only_bind; [exact Hval|]. intro choices.
  apply read_only_bind; [auto with read_only|]. intro vs.
  apply read_only_bind; auto with read_only.
Qed.

Lemma same_fields (self1 self2 : instance) :
  request self1 = request self2 -> values self1 = values self2 -> self1 = self2.
Proof.
  destruct self1, self2; cbn; intros -> ->; reflexivity.
Qed.




(** * Further properties *)

(** ** The stored values *)

(** X1: whatever is passed as [values], what the constructor stores is
    iterable and is never [None] nor a bare string: iterating
    [self.values] always yields a sequence of values. *)
Theorem init_values_is_a_sequence (req v : pyobj) :
  has_iter (values (__init__ req v)) = true /\
  is_string (values (__init__ req v)) = false /\
  values (__init__ req v) <> PyNone /\
  exists l, elements (values (__init__ req v)) = Some l.
Proof.
  destruct v; cbn; repeat split; try discriminate; eexists; reflexivity.
Qed.

(** X2: normalization is idempotent: constructing an instance from the
    values another instance stores gives the same stored values. *)
Theorem init_values_idempotent (req req' v : pyobj) :
  values (__init__ req' (values (__init__ req v))) = values (__init__ req v).
Proof.
  destruct v; reflexivity.
Qed.

(** X3: on a freshly constructed instance, with a [choices_for_values]
    that returns a list and leaves the instance alone,
    [validate_values] answers by the kind of [values] that was passed:
    for [None] it is [True] exactly when no choice is returned; for a
    string or a value that is not iterable, exactly when one choice is
    returned; for a list or a tuple, exactly when as many choices as
    elements (duplicates counted) are returned; and for an iterator,
    which is stored as it is and has no length, it raises the
    [TypeError] of [len]. *)
Theorem validate_values_after_init {choice : Type} (cls : Cls.t choice)
    (req v : pyobj) (choices : list choice) :
  Cls.choices_for_values cls (__init__ req v) = (Ok choices, __init__ req v) ->
  (v = PyNone ->
     exists b,
       AutocompleteBase.validate_values cls (__init__ req v) = (Ok b, __init__ req v) /\
       (b = true <-> choices = [])) /\
  (v <> PyNone -> is_string v = true \/ has_iter v = false ->
     exists b,
       AutocompleteBase.validate_values cls (__init__ req v) = (Ok b, __init__ req v) /\
       (b = true <-> List.length choices = 1)) /\
  (forall l, v = PyList l \/ v = PyTuple l ->
     exists b,
       AutocompleteBase.validate_values cls (__init__ req v) = (Ok b, __init__ req v) /\
       (b = true <-> List.length choices = List.length l)) /\
  (forall kind items, v = PyIterator kind items ->
     AutocompleteBase.validate_values cls (__init__ req v)
     = (Raise (TypeError ("object of type " ++ SQ ++ kind ++ SQ ++ " has no len()")),
        __init__ req v)).
Proof.
  intro Hchoices.
  assert (Hcount : forall n, py_len (values (__init__ req v)) = Ok n ->
            exists b,
              AutocompleteBase.validate_values cls (__init__ req v)
                = (Ok b, __init__ req v) /\
              (b = true <-> List.length choices = n)).
  { intros n Hlen. exists (Nat.eqb (List.length choices) n).
    split; [now apply validate_values_counts | apply Nat.eqb_eq]. }
  split; [|split; [|split]].
  - intros ->. destruct (Hcount 0 eq_refl) as (b & Hb & Hiff).
    exists b. split; [exact Hb|]. rewrite Hiff. apply length_zero_iff_nil.
  - intros Hnone Hscalar. apply Hcount.
    now rewrite (init_wraps req v Hnone Hscalar).
  - intros l [-> | ->]; apply Hcount; reflexivity.
  - intros kind items ->.
    unfold AutocompleteBase.validate_values, bind. rewrite Hchoices. reflexivity.
Qed.

Lemma validate_values_after_init_witness :
  let cls := fixed_choices "Cities" [] [mkObject 3 "Paris"] in
  (exists b,
      AutocompleteBase.validate_values cls (__init__ PyNone (PyStr "Paris"))
        = (Ok b, __init__ PyNone (PyStr "Paris")) /\
      (b = true <-> List.length [mkObject 3 "Paris"] = 1)) /\
  AutocompleteBase.validate_values cls
    (__init__ PyNone (PyIterator "list_iterator" [PyInt 1; PyInt 2]))
  = (Raise (TypeError ("object of type " ++ SQ ++ "list_iterator" ++ SQ ++ " has no len()")),
     __init__ PyNone (PyIterator "list_iterator" [PyInt 1; PyInt 2])).
Proof.
  intro cls. split.
  - destruct (validate_values_after_init cls PyNone (PyStr "Paris") [mkObject 3 "Paris"])
      as (_ & Hscalar & _); [reflexivity|].
    apply Hscalar; [discriminate | left; reflexivity].
  - destruct (validate_values_after_init cls PyNone
                (PyIterator "list_iterator" [PyInt 1; PyInt 2]) [mkObject 3 "Paris"])
      as (_ & _ & _ & Hiterator); [reflexivity|].
    apply (Hiterator "list_iterator" [PyInt 1; PyInt 2]). reflexivity.
Defined.

(** ** Errors pass through *)

Lemma for_each_raises {A B : Type} (f : A -> M B) (h : A -> B)
    (pre : list A) (x : A) (post : list A) (e : exn) (self : instance) :
  (forall y, In y pre -> forall s, f y s = (Ok (h y), s)) ->
  f x self = (Raise e, self) ->
  for_each f (pre ++ x :: post)%list self = (Raise e, self).
Proof.
  intros Hpre Hx.
  induction pre as [|y pre IH]; cbn [app for_each].
  - unfold bind at 1. rewrite Hx. reflexivity.
  - unfold bind at 1. rewrite (Hpre y (or_introl eq_refl)).
    unfold bind at 1. rewrite IH; [reflexivity|].
    intros z Hz. apply Hpre. now right.
Qed.

(** X4: [autocomplete_html] never turns a failure into markup.  What
    [choices_for_request] raises is raised unchanged, and so is what the
    first failing [choice_html] raises; in neither case is the "no
    matches" markup returned. *)
Theorem autocomplete_html_raises `{Django} {choice : Type} (cls : Cls.t choice)
    (self self' : instance) (e : exn) :
  (Cls.choices_for_request cls self = (Raise e, self') ->
   AutocompleteBase.autocomplete_html cls self = (Raise e, self')) /\
  (forall (h : choice -> string) (pre : list choice) (c : choice) (post : list choice),
      Cls.choices_for_request cls self = (Ok (pre ++ c :: post)%list, self') ->
      (forall x, In x pre ->
         forall s, AutocompleteBase.choice_html cls x s = (Ok (h x), s)) ->
      AutocompleteBase.choice_html cls c self' = (Raise e, self') ->
      AutocompleteBase.autocomplete_html cls self = (Raise e, self')).
Proof.
  split.
  - intro Hraise. unfold AutocompleteBase.autocomplete_html, bind.
    rewrite Hraise. reflexivity.
  - intros h pre c post Hchoices Hpre Hc.
    unfold AutocompleteBase.autocomplete_html. unfold bind at 1. rewrite Hchoices.
    unfold bind at 1.
    rewrite (for_each_raises _ h pre c post e self' Hpre Hc). reflexivity.
Qed.

Lemma autocomplete_html_raises_witness :
  let e := TypeError (SQ ++ "NotImplementedType" ++ SQ ++ " object is not callable") in
  AutocompleteBase.autocomplete_html (H := django site_urls)
    (AutocompleteBase.cls (choice := string)) (__init__ PyNone PyNone)
    = (Raise e, __init__ PyNone PyNone) /\
  AutocompleteBase.autocomplete_html (H := django site_urls)
    (with_choice_html_format "<li>%s</li>" (fixed_choices "Letters" ["a"; "b"] []))
    (__init__ PyNone PyNone)
    = (Raise not_all_converted, __init__ PyNone PyNone).
Proof.
  intro e. split.
  - apply (autocomplete_html_raises (H := django site_urls)
             (AutocompleteBase.cls (choice := string))
             (__init__ PyNone PyNone) (__init__ PyNone PyNone) e).
    reflexivity.
  - apply (autocomplete_html_raises (H := django site_urls)
             (with_choice_html_format "<li>%s</li>" (fixed_choices "Letters" ["a"; "b"] []))
             (__init__ PyNone PyNone) (__init__ PyNone PyNone) not_all_converted)
      with (h := fun c => c) (pre := []) (c := "a") (post := ["b"]).
    + reflexivity.
    + intros x [].
    + reflexivity.
Defined.

(** X5: [validate_values] raises what [choices_for_values] raises, and
    when the choices are returned but [self.values] has no length it
    raises the [TypeError] of [len]; it answers [False] in neither
    case. *)
Theorem validate_values_raises {choice : Type} (cls : Cls.t choice)
    (self self' : instance) (e : exn) :
  (Cls.choices_for_values cls self = (Raise e, self') ->
   AutocompleteBase.validate_values cls self = (Raise e, self')) /\
  (forall choices,
      Cls.choices_for_values cls self = (Ok choices, self') ->
      py_len (values self') = Raise e ->
      AutocompleteBase.validate_values cls self = (Raise e, self')).
Proof.
  split.
  - intro Hraise. unfold AutocompleteBase.validate_values, bind.
    rewrite Hraise. reflexivity.
  - intros choices Hchoices Hlen.
    unfold AutocompleteBase.validate_values, bind. rewrite Hchoices.
    unfold get_values, lift. rewrite Hlen. reflexivity.
Qed.

Lemma validate_values_raises_witness :
  AutocompleteBase.validate_values (AutocompleteBase.cls (choice := string))
    (__init__ PyNone (PyStr "a"))
  = (Raise (TypeError (SQ ++ "NotImplementedType" ++ SQ ++ " object is not callable")),
     __init__ PyNone (PyStr "a")) /\
  AutocompleteBase.validate_values (fixed_choices "Letters" [] ["a"])
    (mkInstance PyNone (PyInt 3))
  = (Raise (TypeError ("object of type " ++ SQ ++ "int" ++ SQ ++ " has no len()")),
     mkInstance PyNone (PyInt 3)).
Proof.
  split.
  - apply (validate_values_raises (AutocompleteBase.cls (choice := string))
             (__init__ PyNone (PyStr "a")) (__init__ PyNone (PyStr "a"))).
    reflexivity.
  - apply (validate_values_raises (fixed_choices "Letters" [] ["a"])
             (mkInstance PyNone (PyInt 3)) (mkInstance PyNone (PyInt 3)))
      with (choices := ["a"]); reflexivity.
Defined.

(** ** Templates and their slots *)

Lemma pyformat_empty (args : list string) :
  (List.length args = 0 -> exists s, pyformat "" args = Ok s) /\
  (List.length args < 0 -> pyformat "" args = Raise not_enough_arguments) /\
  (0 < List.length args -> pyformat "" args = Raise not_all_converted).
Proof.
  destruct args as [|a args]; cbn; repeat split; try lia; try discriminate.
  now exists "".
Qed.

Lemma pyformat_arity_bounded (k : nat) :
  forall fmt, String.length fmt <= k ->
  forall n, slots fmt = Some n ->
  forall args,
    (List.length args = n -> exists s, pyformat fmt args = Ok s) /\
    (List.length args < n -> pyformat fmt args = Raise not_enough_arguments) /\
    (n < List.length args -> pyformat fmt args = Raise not_all_converted).
Proof.
  induction k as [|k IH]; intros fmt Hk n Hslots args.
  - destruct fmt; [|cbn in Hk; lia].
    cbn in Hslots. injection Hslots as <-. apply pyformat_empty.
  - destruct fmt as [|c rest].
    { cbn in Hslots. injection Hslots as <-. apply pyformat_empty. }
    cbn [String.length] in Hk. cbn [slots] in Hslots. cbn [pyformat].
    destruct (Ascii.eqb c percent).
    + destruct rest as [|d rest']; [discriminate|].
      cbn [String.length] in Hk.
      destruct (Ascii.eqb d "s"%char).
      * destruct (slots rest') as [m|] eqn:Hm; [|discriminate].
        cbn in Hslots. injection Hslots as <-.
        destruct args as [|a args'].
        { cbn [List.length]. split; [|split]; intro Hlen; try lia. reflexivity. }
        destruct (IH rest' ltac:(lia) m Hm args') as (Heq & Hlt & Hgt).
        cbn [List.length]. split; [|split]; intro Hlen.
        -- destruct Heq as [s Hs]; [lia|]. rewrite Hs. cbn. eauto.
        -- rewrite Hlt by lia. reflexivity.
        -- rewrite Hgt by lia. reflexivity.
      * destruct (Ascii.eqb d percent); [|discriminate].
        destruct (IH rest' ltac:(lia) n Hslots args) as (Heq & Hlt & Hgt).
        split; [|split]; intro Hlen.
        -- destruct Heq as [s Hs]; [lia|]. rewrite Hs. cbn. eauto.
        -- rewrite Hlt by lia. reflexivity.
        -- rewrite Hgt by lia. reflexivity.
    + destruct (IH rest ltac:(lia) n Hslots args) as (Heq & Hlt & Hgt).
      split; [|split]; intro Hlen.
      * destruct Heq as [s Hs]; [lia|]. rewrite Hs. cbn. eauto.
      * rewrite Hlt by lia. reflexivity.
      * rewrite Hgt by lia. reflexivity.
Qed.

Lemma pyformat_arity (fmt : string) (n : nat) (args : list string) :
  slots fmt = Some n ->
  (List.length args = n -> exists s, pyformat fmt args = Ok s) /\
  (List.length args < n -> pyformat fmt args = Raise not_enough_arguments) /\
  (n < List.length args -> pyformat fmt args = Raise not_all_converted).
Proof.
  intro Hslots.
  now apply (pyformat_arity_bounded (String.length fmt) fmt (Nat.le_refl _) n).
Qed.

(** X6: a choice template made of text, [%s] and [%%] formats a choice
    exactly when it has two [%s] slots; with fewer, [choice_html] raises
    "not all arguments converted" for every choice, and with more it
    raises "not enough arguments". *)
Theorem choice_html_needs_two_slots {choice : Type} (cls : Cls.t choice)
    (c : choice) (v l : string) (self : instance) (n : nat) :
  Cls.choice_value cls c self = (Ok v, self) ->
  Cls.choice_label cls c self = (Ok l, self) ->
  slots (Cls.choice_html_format cls) = Some n ->
  (n = 2 -> exists html, AutocompleteBase.choice_html cls c self = (Ok html, self)) /\
  (n < 2 -> AutocompleteBase.choice_html cls c self = (Raise not_all_converted, self)) /\
  (2 < n -> AutocompleteBase.choice_html cls c self = (Raise not_enough_arguments, self)).
Proof.
  intros Hv Hl Hslots.
  rewrite (choice_html_of_parts cls c v l self Hv Hl).
  destruct (pyformat_arity _ n [escape v; escape l] Hslots) as (Heq & Hlt & Hgt).
  cbn [List.length] in *.
  split; [|split]; intro Hn.
  - destruct Heq as [s Hs]; [lia|]. rewrite Hs. eauto.
  - now rewrite Hgt.
  - now rewrite Hlt.
Qed.

Lemma choice_html_needs_two_slots_witness :
  (exists html,
      AutocompleteBase.choice_html
        (with_choice_html_format "<li title=%s>100%% %s</li>" (fixed_choices "L" ["a"] []))
        "a" (__init__ PyNone PyNone) = (Ok html, __init__ PyNone PyNone)) /\
  AutocompleteBase.choice_html
    (with_choice_html_format "<li>%s</li>" (fixed_choices "L" ["a"] []))
    "a" (__init__ PyNone PyNone) = (Raise not_all_converted, __init__ PyNone PyNone) /\
  AutocompleteBase.choice_html
    (with_choice_html_format "%s: %s (%s)" (fixed_choices "L" ["a"] []))
    "a" (__init__ PyNone PyNone) = (Raise not_enough_arguments, __init__ PyNone PyNone).
Proof.
  split; [|split].
  - apply (choice_html_needs_two_slots
             (with_choice_html_format "<li title=%s>100%% %s</li>" (fixed_choices "L" ["a"] []))
             "a" "a" "a" (__init__ PyNone PyNone) 2); reflexivity.
  - apply (choice_html_needs_two_slots
             (with_choice_html_format "<li>%s</li>" (fixed_choices "L" ["a"] []))
             "a" "a" "a" (__init__ PyNone PyNone) 1); try reflexivity. lia.
  - apply (choice_html_needs_two_slots
             (with_choice_html_format "%s: %s (%s)" (fixed_choices "L" ["a"] []))
             "a" "a" "a" (__init__ PyNone PyNone) 3); try reflexivity. lia.
Defined.

(** ** No markup from the choices *)

Lemma count_char_app (c : ascii) (a b : string) :
  count_char c (a ++ b) = count_char c a + count_char c b.
Proof.
  induction a as [|d a IH]; cbn; [reflexivity|]. rewrite IH. lia.
Qed.

Lemma inert_count_markup (c : ascii) (s : string) :
  is_markup c = true -> inert s = true -> count_char c s = 0.
Proof.
  intros Hc. induction s as [|d s IH]; [reflexivity|].
  cbn [inert count_char].
  destruct (is_markup d) eqn:Hd; [discriminate|].
  destruct (Ascii.eqb_spec d c) as [-> | _]; [congruence|].
  destruct (Ascii.eqb d amp); intro Hs.
  - apply andb_true_iff in Hs. now apply IH.
  - now apply IH.
Qed.

Lemma escape_count_markup (c : ascii) (s : string) :
  is_markup c = true -> count_char c (escape s) = 0.
Proof.
  intro Hc. apply inert_count_markup; [exact Hc | apply escape_inert].
Qed.

Lemma span_count_markup (c : ascii) (v l : string) :
  is_markup c = true ->
  count_char c ("<span data-value=" ++ DQ ++ escape v ++ DQ ++ ">" ++ escape l ++ "</span>")
  = count_char c ("<span data-value=" ++ DQ ++ DQ ++ "></span>").
Proof.
  intro Hc.
  rewrite !count_char_app, !(escape_count_markup c) by exact Hc.
  cbn. lia.
Qed.

(** X7: under the default choice template the markup of a choice holds
    exactly the two [<], two [>] and two double quotes of the template
    and no single quote, whatever text [choice_value] and [choice_label]
    return: a choice cannot open or close a tag or an attribute. *)
Theorem choice_html_adds_no_markup {choice : Type} (cls : Cls.t choice)
    (c : choice) (v l : string) (self : instance) :
  Cls.choice_value cls c self = (Ok v, self) ->
  Cls.choice_label cls c self = (Ok l, self) ->
  Cls.choice_html_format cls = AutocompleteBase.choice_html_format ->
  exists html,
    AutocompleteBase.choice_html cls c self = (Ok html, self) /\
    count_char lt html = 2 /\
    count_char gt html = 2 /\
    count_char dquote html = 2 /\
    count_char squote html = 0.
Proof.
  intros Hv Hl Hfmt.
  rewrite (choice_html_of_parts cls c v l self Hv Hl), Hfmt, choice_html_format_default.
  eexists. split; [reflexivity|].
  repeat split; rewrite span_count_markup; reflexivity.
Qed.

Lemma choice_html_adds_no_markup_witness :
  exists html,
    AutocompleteBase.choice_html (fixed_choices "Tags" [] [])
      (mkObject 1 "</span><script>alert('x')</script>") (__init__ PyNone PyNone)
      = (Ok html, __init__ PyNone PyNone) /\
    count_char lt html = 2 /\
    count_char gt html = 2 /\
    count_char dquote html = 2 /\
    count_char squote html = 0.
Proof.
  apply (choice_html_adds_no_markup (fixed_choices "Tags" [] [])
           (mkObject 1 "</span><script>alert('x')</script>")
           "</span><script>alert('x')</script>" "</span><script>alert('x')</script>"
           (__init__ PyNone PyNone)); reflexivity.
Defined.

Lemma autocomplete_html_default_markup `{Django} {choice : Type} `{Textual choice}
    (cls : Cls.t choice) (self self' : instance) (c : choice) (cs : list choice) :
  Cls.choices_for_request cls self = (Ok (c :: cs), self') ->
  Cls.choice_html_format cls = AutocompleteBase.choice_html_format ->
  Cls.autocomplete_html_format cls = AutocompleteBase.autocomplete_html_format ->
  Cls.choice_value cls = AutocompleteBase.choice_value ->
  Cls.choice_label cls = AutocompleteBase.choice_label ->
  AutocompleteBase.autocomplete_html cls self
  = (Ok (join (map default_choice_markup (c :: cs))), self').
Proof.
  intros Hchoices Hfmt Hlist Hv Hl.
  rewrite (autocomplete_html_of_parts cls self self' (c :: cs) default_choice_markup Hchoices).
  - pose proof (join_default_markup_not_empty c cs) as Hmarkup.
    destruct (join (map default_choice_markup (c :: cs))) as [|ch html];
      [contradiction|].
    cbn [rbind]. now rewrite Hlist, autocomplete_html_format_default.
  - intros x _ s. now apply choice_html_default.
Qed.

Lemma join_default_markup_count {choice : Type} `{Textual choice}
    (c : ascii) (choices : list choice) :
  is_markup c = true ->
  count_char c (join (map default_choice_markup choices))
  = count_char c ("<span data-value=" ++ DQ ++ DQ ++ "></span>") * List.length choices.
Proof.
  intro Hc. induction choices as [|x xs IH].
  - cbn. lia.
  - cbn [map List.length]. rewrite join_cons, count_char_app, IH.
    unfold default_choice_markup. rewrite span_count_markup by exact Hc. lia.
Qed.

(** X8: under the default templates, the markup returned for a non-empty
    list of choices holds two [<], two [>] and two double quotes per
    choice and nothing more: no choice is dropped or merged, and no
    choice adds markup of its own. *)
Theorem autocomplete_html_two_tags_per_choice `{Django} {choice : Type} `{Textual choice}
    (cls : Cls.t choice) (self self' : instance) (choices : list choice) :
  Cls.choices_for_request cls self = (Ok choices, self') ->
  choices <> [] ->
  Cls.choice_html_format cls = AutocompleteBase.choice_html_format ->
  Cls.autocomplete_html_format cls = AutocompleteBase.autocomplete_html_format ->
  Cls.choice_value cls = AutocompleteBase.choice_value ->
  Cls.choice_label cls = AutocompleteBase.choice_label ->
  exists html,
    AutocompleteBase.autocomplete_html cls self = (Ok html, self') /\
    count_char lt html = 2 * List.length choices /\
    count_char gt html = 2 * List.length choices /\
    count_char dquote html = 2 * List.length choices /\
    count_char squote html = 0.
Proof.
  intros Hchoices Hsome Hfmt Hlist Hv Hl.
  destruct choices as [|c cs]; [contradiction|].
  rewrite (autocomplete_html_default_markup cls self self' c cs Hchoices Hfmt Hlist Hv Hl).
  eexists. split; [reflexivity|].
  repeat split; rewrite join_default_markup_count by reflexivity;
    change (count_char _ ("<span data-value=" ++ DQ ++ DQ ++ "></span>")) with 2 ||
    change (count_char _ ("<span data-value=" ++ DQ ++ DQ ++ "></span>")) with 0;
    lia.
Qed.

Lemma autocomplete_html_two_tags_per_choice_witness :
  exists html,
    AutocompleteBase.autocomplete_html (H := django site_urls)
      (fixed_choices "Tags" ["<b>"; "a'b"; "<b>"] []) (__init__ PyNone PyNone)
      = (Ok html, __init__ PyNone PyNone) /\
    count_char lt html = 6 /\
    count_char gt html = 6 /\
    count_char dquote html = 6 /\
    count_char squote html = 0.
Proof.
  apply (autocomplete_html_two_tags_per_choice (H := django site_urls)
           (fixed_choices "Tags" ["<b>"; "a'b"; "<b>"] [])
           (__init__ PyNone PyNone) (__init__ PyNone PyNone) ["<b>"; "a'b"; "<b>"]);
    try reflexivity.
  discriminate.
Defined.

(** ** The shape of the default markup *)

Lemma join_app (xs ys : list string) : join (xs ++ ys)%list = join xs ++ join ys.
Proof.
  induction xs as [|x xs IH]; [reflexivity|].
  cbn [app]. rewrite !join_cons, IH.
  induction x as [|c x IHx]; cbn; [reflexivity | now rewrite IHx].
Qed.

(** X9: under the default templates [autocomplete_html] never returns an
    empty string: whenever [choices_for_request] returns a list, empty
    or not and whatever the active translation, the result is markup
    that opens with a [span] element. *)
Theorem autocomplete_html_default_opens_with_span `{Django} {choice : Type}
    `{Textual choice} (cls : Cls.t choice) (self self' : instance)
    (choices : list choice) :
  Cls.choices_for_request cls self = (Ok choices, self') ->
  Cls.choice_html_format cls = AutocompleteBase.choice_html_format ->
  Cls.empty_html_format cls = AutocompleteBase.empty_html_format ->
  Cls.autocomplete_html_format cls = AutocompleteBase.autocomplete_html_format ->
  Cls.choice_value cls = AutocompleteBase.choice_value ->
  Cls.choice_label cls = AutocompleteBase.choice_label ->
  exists html,
    AutocompleteBase.autocomplete_html cls self = (Ok html, self') /\
    starts_with "<span " html = true /\
    html <> "".
Proof.
  intros Hchoices Hfmt Hempty Hlist Hv Hl.
  destruct choices as [|c cs].
  - rewrite (autocomplete_html_of_parts cls self self' [] (fun _ => "") Hchoices)
      by (intros c []).
    cbn [map join String.concat].
    rewrite Hempty, Hlist, empty_html_format_default. cbn [rbind].
    rewrite autocomplete_html_format_default.
    eexists. split; [reflexivity|]. split; [reflexivity | discriminate].
  - rewrite (autocomplete_html_default_markup cls self self' c cs Hchoices Hfmt Hlist Hv Hl).
    eexists. split; [reflexivity|].
    cbn [map]. rewrite join_cons. unfold default_choice_markup.
    split; [reflexivity | discriminate].
Qed.

Lemma autocomplete_html_default_opens_with_span_witness :
  (exists html,
      AutocompleteBase.autocomplete_html (H := django site_urls)
        (fixed_choices (choice := string) "Cities" [] []) (__init__ PyNone PyNone)
        = (Ok html, __init__ PyNone PyNone) /\
      starts_with "<span " html = true /\ html <> "") /\
  (exists html,
      AutocompleteBase.autocomplete_html (H := django site_urls)
        (fixed_choices "Cities" [""] []) (__init__ PyNone PyNone)
        = (Ok html, __init__ PyNone PyNone) /\
      starts_with "<span " html = true /\ html <> "").
Proof.
  split.
  - apply (autocomplete_html_default_opens_with_span (H := django site_urls)
             (fixed_choices (choice := string) "Cities" [] [])
             (__init__ PyNone PyNone) (__init__ PyNone PyNone) []); reflexivity.
  - apply (autocomplete_html_default_opens_with_span (H := django site_urls)
             (fixed_choices "Cities" [""] [])
             (__init__ PyNone PyNone) (__init__ PyNone PyNone) [""]); reflexivity.
Defined.

(** X10: under the default templates rendering follows the list of
    choices piece by piece: the markup for two non-empty lists of
    choices put one after the other is the markup for the first
    followed by the markup for the second. *)
Theorem autocomplete_html_app `{Django} {choice : Type} `{Textual choice}
    (cls : Cls.t choice) (self : instance) (xs ys : list choice) :
  Cls.choice_html_format cls = AutocompleteBase.choice_html_format ->
  Cls.autocomplete_html_format cls = AutocompleteBase.autocomplete_html_format ->
  Cls.choice_value cls = AutocompleteBase.choice_value ->
  Cls.choice_label cls = AutocompleteBase.choice_label ->
  xs <> [] ->
  ys <> [] ->
  exists hx hy,
    AutocompleteBase.autocomplete_html
      (with_retrieval (ret xs) (Cls.choices_for_values cls) cls) self = (Ok hx, self) /\
    AutocompleteBase.autocomplete_html
      (with_retrieval (ret ys) (Cls.choices_for_values cls) cls) self = (Ok hy, self) /\
    AutocompleteBase.autocomplete_html
      (with_retrieval (ret (xs ++ ys)%list) (Cls.choices_for_values cls) cls) self
    = (Ok (hx ++ hy), self).
Proof.
  intros Hfmt Hlist Hv Hl Hxs Hys.
  destruct xs as [|x xs]; [contradiction|].
  destruct ys as [|y ys]; [contradiction|].
  exists (join (map default_choice_markup (x :: xs))).
  exists (join (map default_choice_markup (y :: ys))).
  split; [|split].
  - now apply autocomplete_html_default_markup.
  - now apply autocomplete_html_default_markup.
  - rewrite <- join_app, <- map_app. cbn [app].
    now apply autocomplete_html_default_markup.
Qed.

Lemma autocomplete_html_app_witness :
  exists hx hy,
    AutocompleteBase.autocomplete_html (H := django site_urls)
      (with_retrieval (ret ["a"]) (ret []) (fixed_choices "L" [] []))
      (__init__ PyNone PyNone) = (Ok hx, __init__ PyNone PyNone) /\
    AutocompleteBase.autocomplete_html (H := django site_urls)
      (with_retrieval (ret ["b"; "a"]) (ret []) (fixed_choices "L" [] []))
      (__init__ PyNone PyNone) = (Ok hy, __init__ PyNone PyNone) /\
    AutocompleteBase.autocomplete_html (H := django site_urls)
      (with_retrieval (ret ["a"; "b"; "a"]) (ret []) (fixed_choices "L" [] []))
      (__init__ PyNone PyNone) = (Ok (hx ++ hy), __init__ PyNone PyNone).
Proof.
  apply (autocomplete_html_app (H := django site_urls) (fixed_choices "L" [] [])
           (__init__ PyNone PyNone) ["a"] ["b"; "a"]);
    try reflexivity; discriminate.
Defined.

(** ** What the two URL methods let through *)

(** X11: [get_absolute_url] never raises [NoReverseMatch]: the only
    outcomes are the URL [reverse] returned, [ImproperlyConfigured] in
    place of a [NoReverseMatch], and any other exception of [reverse]
    unchanged; the instance is left as it was. *)
Theorem get_absolute_url_outcomes `{Django} (name : string) (self : instance) :
  snd (get_absolute_url name self) = self /\
  (forall why, fst (get_absolute_url name self) <> Raise (NoReverseMatch why)) /\
  match reverse "autocomplete_light_autocomplete" [name] None with
  | Ok url => fst (get_absolute_url name self) = Ok url
  | Raise (NoReverseMatch _) =>
      exists msg, fst (get_absolute_url name self) = Raise (ImproperlyConfigured msg)
  | Raise e => fst (get_absolute_url name self) = Raise e
  end.
Proof.
  unfold get_absolute_url, lift. cbn [fst snd].
  split; [reflexivity|].
  destruct (reverse "autocomplete_light_autocomplete" [name] None) as [url | e].
  - split; [discriminate | reflexivity].
  - destruct e; try (split; [discriminate | reflexivity]).
    rewrite url_lookup_failed_message. cbn [rbind].
    split; [discriminate | eexists; reflexivity].
Qed.

(** X12: [get_add_another_url] returns [None] only when the route name
    is unset or empty; with a name set, every URL it returns ends in
    [?_popup=1], and what [reverse] raises, [NoReverseMatch] included,
    is raised unchanged.  The instance is left as it was. *)
Theorem get_add_another_url_outcomes `{Django} {choice : Type}
    (cls : Cls.t choice) (self : instance) :
  snd (AutocompleteBase.get_add_another_url cls self) = self /\
  match fst (AutocompleteBase.get_add_another_url cls self) with
  | Ok None =>
      Cls.add_another_url_name cls = None \/ Cls.add_another_url_name cls = Some ""
  | Ok (Some popup) =>
      exists name url,
        Cls.add_another_url_name cls = Some name /\ name <> "" /\
        reverse name [] (Cls.add_another_url_kwargs cls) = Ok url /\
        popup = url ++ "?_popup=1"
  | Raise e =>
      exists name,
        Cls.add_another_url_name cls = Some name /\ name <> "" /\
        reverse name [] (Cls.add_another_url_kwargs cls) = Raise e
  end.
Proof.
  unfold AutocompleteBase.get_add_another_url.
  destruct (Cls.add_another_url_name cls) as [name|]; [|split; [reflexivity | now left]].
  destruct (String.eqb_spec name "") as [-> | Hname]; cbn [negb].
  - split; [reflexivity | now right].
  - unfold bind, lift, ret.
    destruct (reverse name [] (Cls.add_another_url_kwargs cls)) as [url | e] eqn:Hurl;
      cbn [fst snd]; (split; [reflexivity|]).
    + exists name, url. repeat split; assumption.
    + exists name. repeat split; assumption.
Qed.

(** ** Reading a choice back from its markup *)

Lemma escape_char_cases (c : ascii) :
  (c = amp /\ escape_char c = "&amp;") \/
  (c = lt /\ escape_char c = "&lt;") \/
  (c = gt /\ escape_char c = "&gt;") \/
  (c = dquote /\ escape_char c = "&quot;") \/
  (c = squote /\ escape_char c = "&#x27;") \/
  (c <> amp /\ escape_char c = String c "").
Proof.
  unfold escape_char.
  destruct (Ascii.eqb_spec c amp) as [-> | Hamp]; [now left|]. right.
  destruct (Ascii.eqb_spec c lt) as [-> | Hlt]; [now left|]. right.
  destruct (Ascii.eqb_spec c gt) as [-> | Hgt]; [now left|]. right.
  destruct (Ascii.eqb_spec c dquote) as [-> | Hdq]; [now left|]. right.
  destruct (Ascii.eqb_spec c squote) as [-> | Hsq]; [now left|]. right.
  now split.
Qed.

Lemma escape_char_app_inj (c d : ascii) (r r' : string) :
  escape_char c ++ r = escape_char d ++ r' -> c = d /\ r = r'.
Proof.
  intro Heq.
  destruct (escape_char_cases c)
    as [[Hc Ec] | [[Hc Ec] | [[Hc Ec] | [[Hc Ec] | [[Hc Ec] | [Hc Ec]]]]]];
  destruct (escape_char_cases d)
    as [[Hd Ed] | [[Hd Ed] | [[Hd Ed] | [[Hd Ed] | [[Hd Ed] | [Hd Ed]]]]]];
  rewrite Ec, Ed in Heq; cbn in Heq; try discriminate;
  try (injection Heq as Hhead Htail; subst; split; congruence);
  try (injection Heq as Htail; subst; split; congruence);
  injection Heq as Hhead Htail; unfold amp in *; congruence.
Qed.

Lemma escape_inj (s1 s2 : string) : escape s1 = escape s2 -> s1 = s2.
Proof.
  revert s2. induction s1 as [|c s1 IH]; intros [|d s2] Heq; cbn [escape] in Heq.
  - reflexivity.
  - destruct (escape_char_cases d)
      as [[_ E] | [[_ E] | [[_ E] | [[_ E] | [[_ E] | [_ E]]]]]];
      rewrite E in Heq; discriminate.
  - destruct (escape_char_cases c)
      as [[_ E] | [[_ E] | [[_ E] | [[_ E] | [[_ E] | [_ E]]]]]];
      rewrite E in Heq; discriminate.
  - apply escape_char_app_inj in Heq as [-> Htail].
    now rewrite (IH s2 Htail).
Qed.

Lemma split_at_first (c : ascii) (a b x y : string) :
  count_char c a = 0 ->
  count_char c b = 0 ->
  a ++ String c x = b ++ String c y ->
  a = b /\ x = y.
Proof.
  revert b. induction a as [|d a IH]; intros [|d' b] Ha Hb Heq; cbn in *.
  - injection Heq as ->. now split.
  - injection Heq as <- _. rewrite Ascii.eqb_refl in Hb. discriminate.
  - injection Heq as -> _. rewrite Ascii.eqb_refl in Ha. discriminate.
  - injection Heq as <- Htail.
    destruct (IH b) as [-> ->]; try assumption; try lia.
    now split.
Qed.

(** X13: under the default choice template the markup of a choice
    determines its value and its label: two choices with the same
    markup have the same value text and the same label text. *)
Theorem choice_html_determines_value_and_label {choice : Type} (cls : Cls.t choice)
    (c1 c2 : choice) (v1 l1 v2 l2 : string) (self : instance) :
  Cls.choice_html_format cls = AutocompleteBase.choice_html_format ->
  Cls.choice_value cls c1 self = (Ok v1, self) ->
  Cls.choice_label cls c1 self = (Ok l1, self) ->
  Cls.choice_value cls c2 self = (Ok v2, self) ->
  Cls.choice_label cls c2 self = (Ok l2, self) ->
  AutocompleteBase.choice_html cls c1 self = AutocompleteBase.choice_html cls c2 self ->
  v1 = v2 /\ l1 = l2.
Proof.
  intros Hfmt Hv1 Hl1 Hv2 Hl2.
  rewrite (choice_html_of_parts cls c1 v1 l1 self Hv1 Hl1).
  rewrite (choice_html_of_parts cls c2 v2 l2 self Hv2 Hl2).
  rewrite Hfmt, !choice_html_format_default.
  intro Heq. injection Heq as Heq. cbn in Heq.
  apply split_at_first in Heq as [Hv Hrest];
    try (apply escape_count_markup; reflexivity).
  injection Hrest as Hrest.
  apply split_at_first in Hrest as [Hl _];
    try (apply escape_count_markup; reflexivity).
  split; now apply escape_inj.
Qed.

Lemma choice_html_determines_value_and_label_witness :
  text (mkObject 1 "Q&A") = text (mkObject 2 "Q&A") /\
  text (mkObject 1 "Q&A") = text (mkObject 2 "Q&A").
Proof.
  apply (choice_html_determines_value_and_label (fixed_choices "Tags" [] [])
           (mkObject 1 "Q&A") (mkObject 2 "Q&A") "Q&A" "Q&A" "Q&A" "Q&A"
           (__init__ PyNone PyNone)); reflexivity.
Defined.
